(** * The MLOps code pipeline construct

    A shallow embedding of [infrastructure/lib/codePipelineConstruct.ts]:
    the constructor of [CodePipelineConstruct], which declares a four-stage
    CodePipeline, the CodeBuild projects its actions run and the IAM roles
    those projects assume.

    The constructor is imperative: it creates child constructs inside
    [this], mutates two of them afterwards ([role.addToPolicy],
    [pipeline.addStage]) and can be interrupted by an exception.  It is
    embedded in a state-and-exception monad over the tree of children of
    [this]; objects that are shared and mutated (the pipeline, the roles)
    live in that store and are referred to by their construct id.

    The scope records what the constructor itself declares and attaches.
    Of the CDK library it records what decides the constructor's control
    flow: [pipeline.addStage] binds the actions of the stage and throws
    when a handle or value it dereferences is [undefined].  What the
    library adds on its own account (the default role of a project that
    names none, the statements it grants to the role of a project or of
    the pipeline) belongs to the library and is not recorded. *)

From Stdlib Require Import String Ascii List Bool Arith Lia.
Import ListNotations.
Open Scope string_scope.

(** ** Values as they are at run time

    TypeScript's types are erased: the object the constructor receives may
    lack any property, and a missing property reads as [undefined], here
    [None]. *)

(** A template literal [`${v}`] converts [v] to a string; [undefined]
    becomes the text ["undefined"]. *)
Definition interpolate (v : option string) : string :=
  match v with
  | Some s => s
  | None => "undefined"
  end.

(** [v === 'lit'] for a value that may be [undefined]. *)
Definition strict_eq (v : option string) (lit : string) : bool :=
  match v with
  | Some s => String.eqb s lit
  | None => false
  end.

(** [v || dflt] on strings: [undefined] and the empty string are falsy. *)
Definition or_default (v : option string) (dflt : string) : string :=
  match v with
  | Some EmptyString => dflt
  | Some s => s
  | None => dflt
  end.

(** [needle] occurs in [hay] ([String.prototype.includes]). *)
Fixpoint includes (needle hay : string) : bool :=
  prefix needle hay
  || match hay with
     | EmptyString => false
     | String _ rest => includes needle rest
     end.

(** ** The handles the construct is given *)

Module s3.
Record Bucket := { bucketArn : string; bucketName : string }.
End s3.

Module iam.
(** A role created elsewhere, of which only the ARN is read. *)
Record Role := { roleArn : string }.

Inductive Effect := Allow | Deny.

(** [conditions] maps an operator to the keys it tests and their values. *)
Record PolicyStatement := {
  effect : Effect;
  actions : list string;
  resources : list string;
  conditions : list (string * list (string * list string))
}.
End iam.

(** [cdk.Stack.of(this)]: the deployment context of the enclosing stack. *)
Record Stack := { region : string; account : string }.

Record GithubSource := {
  githubConnectionArn : option string;
  githubRepoOwner : option string;
  githubRepoName : option string;
  githubRepoBranch : option string
}.

Record CodePipelineConstructProps := {
  dataManifestBucket : option s3.Bucket;
  sageMakerArtifactBucket : option s3.Bucket;
  sageMakerExecutionRole : option iam.Role;
  projectName : option string;
  repoType : option string;
  git : option GithubSource
}.

(** ** What the constructor declares *)

Module codebuild.
Record BuildEnvironment := {
  buildImage : string;
  privileged : option bool
}.

(** [role] is the construct id of the role the project assumes, when the
    source names one. *)
Record PipelineProject := {
  buildSpec : string;
  role : option string;
  environment : BuildEnvironment
}.

Record BuildEnvironmentVariable := {
  type : string;
  value : option string
}.

Definition STANDARD_5_0 : string := "aws/codebuild/standard:5.0".
Definition PLAINTEXT : string := "PLAINTEXT".
End codebuild.

Module codepipeline.
Record Artifact := { artifactName : string }.

(** The action classes of [@aws-cdk/aws-codepipeline-actions] the source
    instantiates, each with the properties the source passes that are
    particular to it.  Constructs are referred to by id. *)
Inductive ActionKind :=
| CodeStarConnectionsSourceAction
    (owner repo : option string) (branch : string) (connectionArn : option string)
| CodeCommitSourceAction (repository : string) (branch : string)
| S3SourceAction (bucket : option s3.Bucket) (bucketKey : string)
| CodeBuildAction
    (project : string)
    (environmentVariables : list (string * codebuild.BuildEnvironmentVariable))
| ManualApprovalAction
    (notificationTopic : string)
    (additionalInformation externalEntityLink : string).

Record Action := {
  actionName : string;
  runOrder : option nat;
  input : option Artifact;
  extraInputs : list Artifact;
  outputs : list Artifact;
  kind : ActionKind
}.

Record Stage := { stageName : string; actions : list Action }.

Record Pipeline := {
  restartExecutionOnUpdate : bool;
  stages : list Stage
}.
End codepipeline.

(** A child of [this].  The [policy] of a role lists the statements that the
    constructor attaches to it with [addToPolicy], in order; the statements
    the library attaches to the same role when a project is declared or an
    action is bound are not among them. *)
Inductive Construct :=
| Pipeline (p : codepipeline.Pipeline)
| Repository (repositoryName : string)
| PipelineProject (p : codebuild.PipelineProject)
| Role (assumedBy : string) (policy : list iam.PolicyStatement)
| Topic (topicName : string).

(** The children of [this], by construct id, in creation order. *)
Definition Scope := list (string * Construct).

(** ** Exceptions and the construction monad *)

(** [TypeError] is what the runtime throws when a property of [undefined]
    is read; it carries the property.  [ConfigurationError] is the error
    kind of the specification; no statement of the source throws it. *)
Inductive Exn :=
| TypeError (reading : string)
| ConfigurationError.

Inductive Outcome (A : Type) :=
| Returned (a : A)
| Thrown (e : Exn).
Arguments Returned {A} a.
Arguments Thrown {A} e.

(** A computation transforms the scope and returns or throws; what was
    declared before a throw stays declared. *)
Definition M (A : Type) : Type := Scope -> Scope * Outcome A.

Definition ret {A} (a : A) : M A := fun s => (s, Returned a).

Definition throw {A} (e : Exn) : M A := fun s => (s, Thrown e).

Definition bind {A B} (c : M A) (k : A -> M B) : M B :=
  fun s =>
    match c s with
    | (s', Returned a) => k a s'
    | (s', Thrown e) => (s', Thrown e)
    end.

Declare Scope construct_scope.
Delimit Scope construct_scope with construct.
Notation "x <- c ;; k" := (bind c (fun x => k))
  (at level 100, c at next level, right associativity) : construct_scope.
Notation "c ;; k" := (bind c (fun _ => k))
  (at level 100, right associativity) : construct_scope.
Open Scope construct_scope.

(** [o.p] where [o] may be [undefined]. *)
Definition read {A B} (o : option A) (p : string) (get : A -> B) : M B :=
  match o with
  | Some a => ret (get a)
  | None => throw (TypeError p)
  end.

(** [new C(this, id, ...)]: the construct becomes the last child of [this],
    with the properties the constructor passes; the result is the reference
    to it. *)
Definition new_ (id : string) (c : Construct) : M string :=
  fun s => ((s ++ [(id, c)])%list, Returned id).

Fixpoint update (id : string) (f : Construct -> Construct) (s : Scope) : Scope :=
  match s with
  | [] => []
  | (i, c) :: rest =>
      if String.eqb i id then (i, f c) :: rest else (i, c) :: update id f rest
  end.

Fixpoint lookup (id : string) (s : Scope) : option Construct :=
  match s with
  | [] => None
  | (i, c) :: rest => if String.eqb i id then Some c else lookup id rest
  end.

(** [role.addToPolicy(statement)] *)
Definition addToPolicy (role : string) (st : iam.PolicyStatement) : M unit :=
  fun s =>
    (update role
       (fun c =>
          match c with
          | Role a policy => Role a (policy ++ [st])%list
          | other => other
          end) s,
     Returned tt).

(** What binding an action dereferences.  An S3 source action grants the
    pipeline read access through its bucket, [bucket.grantRead(...)], which
    throws when the bucket is [undefined].  A build action serialises its
    environment variables and scans each value, [value.substring(...)],
    which throws when the value is [undefined].  The other actions
    dereference nothing that comes from the props. *)
Definition bound (a : codepipeline.Action) : M unit :=
  match codepipeline.kind a with
  | codepipeline.S3SourceAction bucket _ => read bucket "grantRead" (fun _ => tt)
  | codepipeline.CodeBuildAction _ environmentVariables =>
      fold_right
        (fun variable rest =>
           read (codebuild.value (snd variable)) "substring" (fun _ => tt) ;; rest)
        (ret tt) environmentVariables
  | _ => ret tt
  end.

(** The actions of a stage are bound one after the other. *)
Fixpoint bind_actions (l : list codepipeline.Action) : M unit :=
  match l with
  | [] => ret tt
  | a :: rest => bound a ;; bind_actions rest
  end.

(** [pipeline.addStage(stage)]: the library binds every action of the stage
    and only then makes the stage the last one of the pipeline; a throw
    while binding leaves the pipeline without the stage. *)
Definition addStage (pipeline : string) (st : codepipeline.Stage) : M unit :=
  bind_actions (codepipeline.actions st) ;;
  fun s =>
    (update pipeline
       (fun c =>
          match c with
          | Pipeline p =>
              Pipeline
                {| codepipeline.restartExecutionOnUpdate :=
                     codepipeline.restartExecutionOnUpdate p;
                   codepipeline.stages := (codepipeline.stages p ++ [st])%list |}
          | other => other
          end) s,
     Returned tt).

(** ** The constructor *)

Definition sourceCodeOutput : codepipeline.Artifact :=
  {| codepipeline.artifactName := "SourceCodeOutput" |}.
Definition sourceDataOutput : codepipeline.Artifact :=
  {| codepipeline.artifactName := "SourceDataOutput" |}.
Definition buildOutput : codepipeline.Artifact :=
  {| codepipeline.artifactName := "BuildOutput" |}.
Definition pipelineOutput : codepipeline.Artifact :=
  {| codepipeline.artifactName := "PipelineOutput" |}.

(** The condition block three of the deploy role's statements carry. *)
Definition calledViaCloudFormation : list (string * list (string * list string)) :=
  [("ForAnyValue:StringEquals", [("aws:CalledVia", ["cloudformation.amazonaws.com"])])].

(** The body of [constructor(scope, id, props)] after [super(scope, id)],
    statement by statement; [stack] is [cdk.Stack.of(this)]. *)
Definition constructor (stack : Stack) (props : CodePipelineConstructProps) : M unit :=
  pipeline <- new_ "MLOpsPipeline"
    (Pipeline {| codepipeline.restartExecutionOnUpdate := true;
                 codepipeline.stages := [] |}) ;;
  (* Source Code *)
  sourceCode <-
    (if strict_eq (repoType props) "git" then
       owner <- read (git props) "githubRepoOwner" githubRepoOwner ;;
       repo <- read (git props) "githubRepoName" githubRepoName ;;
       branch <- read (git props) "githubRepoBranch" githubRepoBranch ;;
       connectionArn <- read (git props) "githubConnectionArn" githubConnectionArn ;;
       ret {| codepipeline.actionName := "SourceCode";
              codepipeline.runOrder := None;
              codepipeline.input := None;
              codepipeline.extraInputs := [];
              codepipeline.outputs := [sourceCodeOutput];
              codepipeline.kind :=
                codepipeline.CodeStarConnectionsSourceAction
                  owner repo (or_default branch "main") connectionArn |}
     else
       sourceRepo <- new_ "SourceRepository" (Repository "MLOpsE2EDemo") ;;
       ret {| codepipeline.actionName := "SourceCode";
              codepipeline.runOrder := None;
              codepipeline.input := None;
              codepipeline.extraInputs := [];
              codepipeline.outputs := [sourceCodeOutput];
              codepipeline.kind :=
                codepipeline.CodeCommitSourceAction sourceRepo "main" |}) ;;
  (* Source Data *)
  let sourceData :=
    {| codepipeline.actionName := "SourceData";
       codepipeline.runOrder := None;
       codepipeline.input := None;
       codepipeline.extraInputs := [];
       codepipeline.outputs := [sourceDataOutput];
       codepipeline.kind :=
         codepipeline.S3SourceAction (dataManifestBucket props) "manifest.json.zip" |} in
  addStage pipeline
    {| codepipeline.stageName := "Source";
       codepipeline.actions := [sourceCode; sourceData] |} ;;
  (* CI *)
  buildProject <- new_ "CIBuild"
    (PipelineProject
       {| codebuild.buildSpec := "./buildspecs/build.yml";
          codebuild.role := None;
          codebuild.environment :=
            {| codebuild.buildImage := codebuild.STANDARD_5_0;
               codebuild.privileged := Some true |} |}) ;;
  let build :=
    {| codepipeline.actionName := "CIBuild";
       codepipeline.runOrder := None;
       codepipeline.input := Some sourceCodeOutput;
       codepipeline.extraInputs := [sourceDataOutput];
       codepipeline.outputs := [buildOutput];
       codepipeline.kind := codepipeline.CodeBuildAction buildProject [] |} in
  addStage pipeline
    {| codepipeline.stageName := "CI"; codepipeline.actions := [build] |} ;;
  (* MLPipeline *)
  mlPipelineRole <- new_ "MLPipelineRole" (Role "codebuild.amazonaws.com" []) ;;
  bucketArn <- read (sageMakerArtifactBucket props) "bucketArn" s3.bucketArn ;;
  bucketArn' <- read (sageMakerArtifactBucket props) "bucketArn" s3.bucketArn ;;
  addToPolicy mlPipelineRole
    {| iam.effect := iam.Allow;
       iam.actions := ["s3:CreateBucket"; "s3:GetObject"; "s3:PutObject"; "s3:ListBucket"];
       iam.resources := [bucketArn; bucketArn' ++ "/*"];
       iam.conditions := [] |} ;;
  addToPolicy mlPipelineRole
    {| iam.effect := iam.Allow;
       iam.actions :=
         ["sagemaker:CreatePipeline";
          "sagemaker:ListTags";
          "sagemaker:AddTags";
          "sagemaker:UpdatePipeline";
          "sagemaker:DescribePipeline";
          "sagemaker:StartPipelineExecution";
          "sagemaker:DescribePipelineExecution";
          "sagemaker:ListPipelineExecutionSteps"];
       iam.resources :=
         ["arn:aws:sagemaker:" ++ region stack ++ ":" ++ account stack ++ ":pipeline/"
            ++ interpolate (projectName props);
          "arn:aws:sagemaker:" ++ region stack ++ ":" ++ account stack ++ ":pipeline/"
            ++ interpolate (projectName props) ++ "/*"];
       iam.conditions := [] |} ;;
  roleArn <- read (sageMakerExecutionRole props) "roleArn" iam.roleArn ;;
  addToPolicy mlPipelineRole
    {| iam.effect := iam.Allow;
       iam.actions := ["iam:PassRole"];
       iam.resources := [roleArn];
       iam.conditions := [] |} ;;
  mlPipelineProject <- new_ "MLPipeline"
    (PipelineProject
       {| codebuild.buildSpec := "./buildspecs/pipeline.yml";
          codebuild.role := Some mlPipelineRole;
          codebuild.environment :=
            {| codebuild.buildImage := codebuild.STANDARD_5_0;
               codebuild.privileged := None |} |}) ;;
  bucketName <- read (sageMakerArtifactBucket props) "bucketName" s3.bucketName ;;
  roleArn' <- read (sageMakerExecutionRole props) "roleArn" iam.roleArn ;;
  let mlPipelie :=
    {| codepipeline.actionName := "MLPipeline";
       codepipeline.runOrder := None;
       codepipeline.input := Some buildOutput;
       codepipeline.extraInputs := [];
       codepipeline.outputs := [pipelineOutput];
       codepipeline.kind :=
         codepipeline.CodeBuildAction mlPipelineProject
           [("SAGEMAKER_ARTIFACT_BUCKET",
             {| codebuild.type := codebuild.PLAINTEXT;
                codebuild.value := Some bucketName |});
            ("SAGEMAKER_PIPELINE_ROLE_ARN",
             {| codebuild.type := codebuild.PLAINTEXT;
                codebuild.value := Some roleArn' |});
            ("SAGEMAKER_PROJECT_NAME",
             {| codebuild.type := codebuild.PLAINTEXT;
                codebuild.value := projectName props |})] |} in
  addStage pipeline
    {| codepipeline.stageName := "MLPipeline"; codepipeline.actions := [mlPipelie] |} ;;
  (* Deploy *)
  deploymentApprovalTopic <- new_ "ModelDeploymentApprovalTopic"
    (Topic "ModelDeploymentApprovalTopic") ;;
  let manualApprovalAction :=
    {| codepipeline.actionName := "Approval";
       codepipeline.runOrder := Some 1;
       codepipeline.input := None;
       codepipeline.extraInputs := [];
       codepipeline.outputs := [];
       codepipeline.kind :=
         codepipeline.ManualApprovalAction deploymentApprovalTopic
           ("A new version of the model for project " ++ interpolate (projectName props)
              ++ " is waiting for approval")
           ("https://" ++ region stack ++ ".console.aws.amazon.com/sagemaker/home?region="
              ++ region stack ++ "#/studio/") |} in
  deployRole <- new_ "DeployRole" (Role "codebuild.amazonaws.com" []) ;;
  addToPolicy deployRole
    {| iam.effect := iam.Allow;
       iam.actions := ["lambda:*Function*"];
       iam.resources :=
         ["arn:aws:lambda:" ++ region stack ++ ":" ++ account stack
            ++ ":function:Deployment-" ++ interpolate (projectName props) ++ "*"];
       iam.conditions := calledViaCloudFormation |} ;;
  addToPolicy deployRole
    {| iam.effect := iam.Allow;
       iam.actions := ["sagemaker:*Endpoint*"];
       iam.resources := ["*"];
       iam.conditions := calledViaCloudFormation |} ;;
  addToPolicy deployRole
    {| iam.effect := iam.Allow;
       iam.actions := ["iam:*Role"; "iam:*Policy*"; "iam:*RolePolicy"];
       iam.resources :=
         ["arn:aws:iam::" ++ account stack ++ ":role/Deployment-"
            ++ interpolate (projectName props) ++ "-*"];
       iam.conditions := calledViaCloudFormation |} ;;
  addToPolicy deployRole
    {| iam.effect := iam.Allow;
       iam.actions :=
         ["cloudformation:DescribeStacks";
          "cloudformation:CreateChangeSet";
          "cloudformation:DescribeChangeSet";
          "cloudformation:ExecuteChangeSet";
          "cloudformation:DescribeStackEvents";
          "cloudformation:DeleteChangeSet";
          "cloudformation:GetTemplate"];
       iam.resources :=
         ["arn:aws:cloudformation:" ++ region stack ++ ":" ++ account stack
            ++ ":stack/CDKToolkit/*";
          "arn:aws:cloudformation:" ++ region stack ++ ":" ++ account stack
            ++ ":stack/Deployment-" ++ interpolate (projectName props) ++ "/*"];
       iam.conditions := [] |} ;;
  addToPolicy deployRole
    {| iam.effect := iam.Allow;
       iam.actions := ["s3:*Object"; "s3:ListBucket"; "s3:GetBucketLocation"];
       iam.resources := ["arn:aws:s3:::cdktoolkit-stagingbucket-*"];
       iam.conditions := [] |} ;;
  deployProject <- new_ "DeployProject"
    (PipelineProject
       {| codebuild.buildSpec := "./buildspecs/deploy.yml";
          codebuild.role := Some deployRole;
          codebuild.environment :=
            {| codebuild.buildImage := codebuild.STANDARD_5_0;
               codebuild.privileged := Some true |} |}) ;;
  let deploy :=
    {| codepipeline.actionName := "Deploy";
       codepipeline.runOrder := Some 2;
       codepipeline.input := Some buildOutput;
       codepipeline.extraInputs := [pipelineOutput];
       codepipeline.outputs := [];
       codepipeline.kind := codepipeline.CodeBuildAction deployProject [] |} in
  addStage pipeline
    {| codepipeline.stageName := "Deploy";
       codepipeline.actions := [manualApprovalAction; deploy] |}.

(** [new CodePipelineConstruct(scope, id, props)]: the constructor run on a
    construct that has no child yet.  The result is the construct as the
    constructor left it and whether it returned or threw. *)
Definition new_CodePipelineConstruct (stack : Stack) (props : CodePipelineConstructProps)
  : Scope * Outcome unit :=
  constructor stack props [].

(** [this.pipeline] and its stages, as they stand in a scope. *)
Definition pipeline_of (s : Scope) : option codepipeline.Pipeline :=
  match lookup "MLOpsPipeline" s with
  | Some (Pipeline p) => Some p
  | _ => None
  end.

Definition stages_of (s : Scope) : list codepipeline.Stage :=
  match pipeline_of s with
  | Some p => codepipeline.stages p
  | None => []
  end.

(** The graph a run leaves behind, and its outcome. *)
Definition graph (stack : Stack) (props : CodePipelineConstructProps) : Scope :=
  fst (new_CodePipelineConstruct stack props).

Definition outcome (stack : Stack) (props : CodePipelineConstructProps) : Outcome unit :=
  snd (new_CodePipelineConstruct stack props).

(** ** Observations on a graph *)

Definition is_some {A} (o : option A) : bool :=
  match o with
  | Some _ => true
  | None => false
  end.

(** When the tag is ['git'], the [git] block is there with its three
    required properties. *)
Definition source_given (props : CodePipelineConstructProps) : bool :=
  if strict_eq (repoType props) "git" then
    match git props with
    | Some block =>
        is_some (githubConnectionArn block)
        && is_some (githubRepoOwner block)
        && is_some (githubRepoName block)
    | None => false
    end
  else true.

(** The configuration has the declared type [CodePipelineConstructProps]:
    the four common properties are there, the tag is ['git'] or
    ['codecommit'], and a ['git'] configuration has its block. *)
Definition valid (props : CodePipelineConstructProps) : bool :=
  is_some (dataManifestBucket props)
  && is_some (sageMakerArtifactBucket props)
  && is_some (sageMakerExecutionRole props)
  && is_some (projectName props)
  && (strict_eq (repoType props) "git" || strict_eq (repoType props) "codecommit")
  && source_given props.

Definition with_repoType (props : CodePipelineConstructProps) (tag : option string)
  : CodePipelineConstructProps :=
  {| dataManifestBucket := dataManifestBucket props;
     sageMakerArtifactBucket := sageMakerArtifactBucket props;
     sageMakerExecutionRole := sageMakerExecutionRole props;
     projectName := projectName props;
     repoType := tag;
     git := git props |}.

Definition stage_names (s : Scope) : list string :=
  map codepipeline.stageName (stages_of s).

Definition find_stage (name : string) (s : Scope) : option codepipeline.Stage :=
  find (fun st => String.eqb (codepipeline.stageName st) name) (stages_of s).

Definition find_action (name : string) (st : codepipeline.Stage)
  : option codepipeline.Action :=
  find (fun a => String.eqb (codepipeline.actionName a) name) (codepipeline.actions st).

(** The managed repositories declared in a scope: construct id and name. *)
Definition repositories (s : Scope) : list (string * string) :=
  flat_map
    (fun child =>
       match snd child with
       | Repository name => [(fst child, name)]
       | _ => []
       end) s.

(** The statements the constructor has attached to a role of the scope. *)
Definition policy_of (role : string) (s : Scope) : list iam.PolicyStatement :=
  match lookup role s with
  | Some (Role _ policy) => policy
  | _ => []
  end.

Definition is_approval (a : codepipeline.Action) : bool :=
  match codepipeline.kind a with
  | codepipeline.ManualApprovalAction _ _ _ => true
  | _ => false
  end.

Definition is_build (a : codepipeline.Action) : bool :=
  match codepipeline.kind a with
  | codepipeline.CodeBuildAction _ _ => true
  | _ => false
  end.

(** Whether a build action's project, looked up in the scope, asks for a
    privileged environment; an environment that leaves the flag out is not
    privileged. *)
Definition runs_privileged (s : Scope) (a : codepipeline.Action) : bool :=
  match codepipeline.kind a with
  | codepipeline.CodeBuildAction project _ =>
      match lookup project s with
      | Some (PipelineProject p) =>
          match codebuild.privileged (codebuild.environment p) with
          | Some flag => flag
          | None => false
          end
      | _ => false
      end
  | _ => false
  end.

(** The artifacts an action reads: its primary input, then the extra ones. *)
Definition consumed (a : codepipeline.Action) : list codepipeline.Artifact :=
  (match codepipeline.input a with
   | Some i => [i]
   | None => []
   end ++ codepipeline.extraInputs a)%list.

Definition produced (st : codepipeline.Stage) : list codepipeline.Artifact :=
  flat_map codepipeline.outputs (codepipeline.actions st).

Definition artifact_eqb (a b : codepipeline.Artifact) : bool :=
  String.eqb (codepipeline.artifactName a) (codepipeline.artifactName b).

(** Every artifact a stage reads is among [available], the outputs of the
    stages before it. *)
Fixpoint wired (available : list codepipeline.Artifact)
    (stages : list codepipeline.Stage) : bool :=
  match stages with
  | [] => true
  | st :: rest =>
      forallb
        (fun a => forallb (fun art => existsb (artifact_eqb art) available) (consumed a))
        (codepipeline.actions st)
      && wired (available ++ produced st) rest
  end.

(** No stage reads an artifact that it or a later stage produces. *)
Fixpoint no_later_producer (stages : list codepipeline.Stage) : bool :=
  match stages with
  | [] => true
  | st :: rest =>
      forallb
        (fun a =>
           forallb
             (fun art => negb (existsb (artifact_eqb art) (flat_map produced (st :: rest))))
             (consumed a))
        (codepipeline.actions st)
      && no_later_producer rest
  end.

(** [art] is an output of an action in a stage of index below [n]. *)
Definition produced_before (stages : list codepipeline.Stage) (n : nat)
    (art : codepipeline.Artifact) : Prop :=
  exists m st a,
    m < n /\ nth_error stages m = Some st
    /\ In a (codepipeline.actions st) /\ In art (codepipeline.outputs a).

(** [art] is an output of an action in stage [n] or in a later one. *)
Definition produced_from (stages : list codepipeline.Stage) (n : nat)
    (art : codepipeline.Artifact) : Prop :=
  exists m st a,
    n <= m /\ nth_error stages m = Some st
    /\ In a (codepipeline.actions st) /\ In art (codepipeline.outputs a).

(** The structure of a graph: per stage its name and, per action, the
    action's name, run-order, input artifacts and output artifacts. *)
Definition wiring (a : codepipeline.Action)
  : string * option nat * list string * list string :=
  (codepipeline.actionName a,
   codepipeline.runOrder a,
   map codepipeline.artifactName (consumed a),
   map codepipeline.artifactName (codepipeline.outputs a)).

Definition topology (s : Scope)
  : list (string * list (string * option nat * list string * list string)) :=
  map (fun st => (codepipeline.stageName st, map wiring (codepipeline.actions st)))
    (stages_of s).

(** The action group of the pipeline-lifecycle statement. *)
Definition pipelineLifecycleActions : list string :=
  ["sagemaker:CreatePipeline";
   "sagemaker:UpdatePipeline";
   "sagemaker:DescribePipeline";
   "sagemaker:ListTags";
   "sagemaker:AddTags";
   "sagemaker:StartPipelineExecution";
   "sagemaker:DescribePipelineExecution";
   "sagemaker:ListPipelineExecutionSteps"].

(** The statement grants at least one action of the group. *)
Definition grants_any (group : list string) (st : iam.PolicyStatement) : bool :=
  existsb (fun a => existsb (String.eqb a) (iam.actions st)) group.

(** Every action of the pipeline, stage after stage. *)
Definition all_actions (s : Scope) : list codepipeline.Action :=
  flat_map codepipeline.actions (stages_of s).

(** The roles declared in a scope: construct id, principal and statements. *)
Definition roles (s : Scope) : list (string * string * list iam.PolicyStatement) :=
  flat_map
    (fun child =>
       match snd child with
       | Role assumedBy policy => [(fst child, assumedBy, policy)]
       | _ => []
       end) s.

(** The statement grants an action of the service whose prefix is given. *)
Definition grants_service (service : string) (st : iam.PolicyStatement) : bool :=
  existsb (prefix service) (iam.actions st).

(** The constructs an action refers to are declared in the scope, each of
    the class the action expects; so is the role of a build action's
    project. *)
Definition resolves (s : Scope) (a : codepipeline.Action) : Prop :=
  match codepipeline.kind a with
  | codepipeline.CodeCommitSourceAction repository _ =>
      exists name, lookup repository s = Some (Repository name)
  | codepipeline.CodeBuildAction project _ =>
      exists p,
        lookup project s = Some (PipelineProject p)
        /\ match codebuild.role p with
           | Some r => exists principal policy, lookup r s = Some (Role principal policy)
           | None => True
           end
  | codepipeline.ManualApprovalAction topic _ _ =>
      exists name, lookup topic s = Some (Topic name)
  | _ => True
  end.

(** [art] is read by an action in a stage of index above [m]. *)
Definition consumed_after (stages : list codepipeline.Stage) (m : nat)
    (art : codepipeline.Artifact) : Prop :=
  exists n st a,
    m < n /\ nth_error stages n = Some st
    /\ In a (codepipeline.actions st) /\ In art (consumed a).

(** ** Sample configurations *)

Definition demo_stack : Stack := {| region := "eu-west-1"; account := "111122223333" |}.

Definition demo : CodePipelineConstructProps :=
  {| dataManifestBucket :=
       Some {| s3.bucketArn := "arn:aws:s3:::manifests"; s3.bucketName := "manifests" |};
     sageMakerArtifactBucket :=
       Some {| s3.bucketArn := "arn:aws:s3:::artifacts"; s3.bucketName := "artifacts" |};
     sageMakerExecutionRole := Some {| iam.roleArn := "exec-role" |};
     projectName := Some "demo";
     repoType := Some "git";
     git :=
       Some {| githubConnectionArn := Some "conn1";
               githubRepoOwner := Some "acme";
               githubRepoName := Some "ml-repo";
               githubRepoBranch := None |} |}.

Definition demo_codecommit : CodePipelineConstructProps :=
  {| dataManifestBucket := dataManifestBucket demo;
     sageMakerArtifactBucket := sageMakerArtifactBucket demo;
     sageMakerExecutionRole := sageMakerExecutionRole demo;
     projectName := Some "demo";
     repoType := Some "codecommit";
     git := None |}.

(** A tag that is neither ['git'] nor ['codecommit']. *)
Definition demo_svn : CodePipelineConstructProps :=
  with_repoType demo_codecommit (Some "svn").

(** The artifact bucket is missing. *)
Definition demo_without_bucket : CodePipelineConstructProps :=
  {| dataManifestBucket := dataManifestBucket demo;
     sageMakerArtifactBucket := None;
     sageMakerExecutionRole := sageMakerExecutionRole demo;
     projectName := Some "demo";
     repoType := Some "codecommit";
     git := None |}.

(** Tagged ['git'], but the [git] block is missing. *)
Definition demo_without_block : CodePipelineConstructProps :=
  {| dataManifestBucket := dataManifestBucket demo;
     sageMakerArtifactBucket := sageMakerArtifactBucket demo;
     sageMakerExecutionRole := sageMakerExecutionRole demo;
     projectName := Some "demo";
     repoType := Some "git";
     git := None |}.

(** The [git] variant on a branch of its own. *)
Definition demo_on_develop : CodePipelineConstructProps :=
  {| dataManifestBucket := dataManifestBucket demo;
     sageMakerArtifactBucket := sageMakerArtifactBucket demo;
     sageMakerExecutionRole := sageMakerExecutionRole demo;
     projectName := Some "demo";
     repoType := Some "git";
     git :=
       Some {| githubConnectionArn := Some "conn1";
               githubRepoOwner := Some "acme";
               githubRepoName := Some "ml-repo";
               githubRepoBranch := Some "develop" |} |}.

(** * Properties *)

(** ** Strings *)

Section Includes.
Variable needle : string.

Lemma prefix_append (rest : string) : prefix needle (needle ++ rest) = true.
Proof.
  induction needle as [|c n IH]; cbn.
  - now destruct rest.
  - destruct (ascii_dec c c) as [_|ne]; [exact IH | now elim ne].
Qed.

Lemma prefix_refl : prefix needle needle = true.
Proof.
  induction needle as [|c n IH]; cbn; [reflexivity|].
  destruct (ascii_dec c c) as [_|ne]; [exact IH | now elim ne].
Qed.

Lemma includes_prefix (hay : string) :
  prefix needle hay = true -> includes needle hay = true.
Proof. intros H. destruct hay; cbn [includes]; rewrite H; reflexivity. Qed.

Lemma includes_here (rest : string) : includes needle (needle ++ rest) = true.
Proof. apply includes_prefix, prefix_append. Qed.

Lemma includes_refl : includes needle needle = true.
Proof. apply includes_prefix, prefix_refl. Qed.

Lemma includes_skip (before hay : string) :
  includes needle hay = true -> includes needle (before ++ hay) = true.
Proof.
  intros H. induction before as [|c b IH]; cbn [append].
  - exact H.
  - cbn [includes]. rewrite IH. apply orb_true_r.
Qed.
End Includes.

Lemma strict_eq_spec (v : option string) (lit : string) :
  strict_eq v lit = true <-> v = Some lit.
Proof.
  destruct v as [s|]; cbn.
  - rewrite String.eqb_eq. split; congruence.
  - split; discriminate.
Qed.

(** ** Artifacts and wiring *)

Lemma artifact_eqb_eq (a b : codepipeline.Artifact) :
  artifact_eqb a b = true <-> a = b.
Proof.
  destruct a as [x], b as [y]; unfold artifact_eqb; cbn.
  rewrite String.eqb_eq. split; congruence.
Qed.

Lemma existsb_artifact (art : codepipeline.Artifact) (l : list codepipeline.Artifact) :
  existsb (artifact_eqb art) l = true <-> In art l.
Proof.
  rewrite existsb_exists. split.
  - intros (x & Hin & E). apply artifact_eqb_eq in E. now subst.
  - intros Hin. exists art. split; [exact Hin | now apply artifact_eqb_eq].
Qed.

Lemma in_produced (st : codepipeline.Stage) (art : codepipeline.Artifact) :
  In art (produced st)
  <-> exists a, In a (codepipeline.actions st) /\ In art (codepipeline.outputs a).
Proof. unfold produced. apply in_flat_map. Qed.

(** What [wired] checks: an artifact read in stage [n] was available at the
    start or is an output of an earlier stage. *)
Lemma wired_sound (stages : list codepipeline.Stage) :
  forall available n st a art,
    wired available stages = true ->
    nth_error stages n = Some st ->
    In a (codepipeline.actions st) ->
    In art (consumed a) ->
    In art available \/ produced_before stages n art.
Proof.
  induction stages as [|st0 rest IH]; intros available n st a art W Hn Ha Hart.
  - destruct n; discriminate Hn.
  - cbn [wired] in W. apply andb_true_iff in W as [W0 Wrest].
    destruct n as [|n]; cbn [nth_error] in Hn.
    + injection Hn as <-. left.
      rewrite forallb_forall in W0. specialize (W0 a Ha).
      rewrite forallb_forall in W0. apply existsb_artifact, W0, Hart.
    + destruct (IH _ n st a art Wrest Hn Ha Hart)
        as [Hav | (m & st' & a' & Hlt & Hm & Ha' & Ho)].
      * apply in_app_or in Hav as [Hav | Hp]; [now left | right].
        apply in_produced in Hp as (a' & Ha' & Ho).
        exists 0, st0, a'. repeat split; [lia | assumption | assumption].
      * right. exists (S m), st', a'.
        repeat split; [lia | assumption | assumption | assumption].
Qed.

Lemma no_later_producer_sound (stages : list codepipeline.Stage) :
  forall n st a art,
    no_later_producer stages = true ->
    nth_error stages n = Some st ->
    In a (codepipeline.actions st) ->
    In art (consumed a) ->
    ~ produced_from stages n art.
Proof.
  induction stages as [|st0 rest IH]; intros n st a art W Hn Ha Hart.
  - destruct n; discriminate Hn.
  - cbn [no_later_producer] in W. apply andb_true_iff in W as [W0 Wrest].
    destruct n as [|n]; cbn [nth_error] in Hn.
    + injection Hn as <-. intros (m & st' & a' & _ & Hm & Ha' & Ho).
      rewrite forallb_forall in W0. specialize (W0 a Ha).
      rewrite forallb_forall in W0. specialize (W0 art Hart).
      apply negb_true_iff in W0.
      assert (E : existsb (artifact_eqb art) (flat_map produced (st0 :: rest)) = true).
      { apply existsb_artifact, in_flat_map. exists st'. split.
        - eapply nth_error_In, Hm.
        - apply in_produced. now exists a'. }
      congruence.
    + intros (m & st' & a' & Hle & Hm & Ha' & Ho).
      destruct m as [|m]; [lia|]. cbn [nth_error] in Hm.
      apply (IH n st a art Wrest Hn Ha Hart).
      exists m, st', a'. repeat split; [lia | assumption | assumption | assumption].
Qed.

(** ** The run of the constructor, by cases

    The constructor branches on the tag and can stop at five places, in
    this order: the read of the [git] block, the binding of the manifest
    source action, the reads of the artifact bucket and of the execution
    role, the binding of the MLPipeline build action. *)

Ltac by_cases props :=
  let mb := fresh "manifest" in
  let ab := fresh "bucket" in
  let er := fresh "role" in
  let pn := fresh "name" in
  let rt := fresh "tag" in
  let g := fresh "block" in
  destruct props as [mb ab er pn rt g];
  unfold stage_names, graph, outcome, new_CodePipelineConstruct, constructor,
    valid, source_given, with_repoType in *;
  cbn [dataManifestBucket sageMakerArtifactBucket sageMakerExecutionRole
       projectName repoType git] in *;
  destruct (strict_eq rt "git") eqn:?;
  [ destruct g as [g|] | ];
  try (destruct mb as [mb|];
       [ destruct ab as [ab|];
         [ destruct er as [er|]; [ destruct pn as [pn|] | ] | ] | ]).

Ltac run := cbn -[append includes].
Tactic Notation "run" "in" hyp(H) := cbn -[append includes] in H.

(** Split membership in a list that is known element by element. *)
Ltac each_member H :=
  repeat (destruct H as [<- | H]; [ | ]); try contradiction.

Lemma valid_returns stack props :
  valid props = true -> outcome stack props = Returned tt.
Proof. intros H. by_cases props; run; try discriminate H; reflexivity. Qed.

Lemma never_ConfigurationError stack props :
  outcome stack props <> Thrown ConfigurationError.
Proof. by_cases props; run; discriminate. Qed.

Lemma graph_is_wired stack props :
  wired [] (stages_of (graph stack props)) = true
  /\ no_later_producer (stages_of (graph stack props)) = true.
Proof. by_cases props; run; split; reflexivity. Qed.

(** The end-to-end example: the [git] variant of project [demo]. *)
Example demo_builds :
  outcome demo_stack demo = Returned tt
  /\ topology (graph demo_stack demo)
     = [("Source",
         [("SourceCode", None, [], ["SourceCodeOutput"]);
          ("SourceData", None, [], ["SourceDataOutput"])]);
        ("CI",
         [("CIBuild", None, ["SourceCodeOutput"; "SourceDataOutput"], ["BuildOutput"])]);
        ("MLPipeline", [("MLPipeline", None, ["BuildOutput"], ["PipelineOutput"])]);
        ("Deploy",
         [("Approval", Some 1, [], []);
          ("Deploy", Some 2, ["BuildOutput"; "PipelineOutput"], [])])].
Proof. split; reflexivity. Qed.

(** ** The source variant *)

(** C1, at a configuration tagged ["svn"]: the constructor returns instead
    of failing with [ConfigurationError], and it has declared the managed
    repository of the CodeCommit variant. *)
Lemma unrecognised_tag_is_not_rejected :
  repoType demo_svn = Some "svn"
  /\ outcome demo_stack demo_svn = Returned tt
  /\ outcome demo_stack demo_svn <> Thrown ConfigurationError
  /\ repositories (graph demo_stack demo_svn) = [("SourceRepository", "MLOpsE2EDemo")].
Proof. repeat split. discriminate. Qed.

(** C1, as the code has it: for every configuration whose tag is any value
    other than ["git"] or ["codecommit"] (or is missing), construction does
    not fail with [ConfigurationError]; it proceeds exactly as it does for
    the same configuration tagged ["codecommit"], leaving the same graph
    with the same outcome. *)
Theorem unrecognised_tag_builds_as_codecommit stack props :
  repoType props <> Some "git" ->
  repoType props <> Some "codecommit" ->
  outcome stack props <> Thrown ConfigurationError
  /\ new_CodePipelineConstruct stack props
     = new_CodePipelineConstruct stack (with_repoType props (Some "codecommit")).
Proof.
  intros Hgit _. split; [apply never_ConfigurationError|].
  assert (E : strict_eq (repoType props) "git" = false).
  { destruct (strict_eq (repoType props) "git") eqn:E; [|reflexivity].
    apply strict_eq_spec in E. contradiction. }
  unfold new_CodePipelineConstruct, constructor, with_repoType.
  cbn [dataManifestBucket sageMakerArtifactBucket sageMakerExecutionRole
       projectName repoType git].
  rewrite E. reflexivity.
Qed.

(** Instance: the configuration tagged ["svn"]. *)
Lemma unrecognised_tag_builds_as_codecommit_demo :
  outcome demo_stack demo_svn <> Thrown ConfigurationError
  /\ new_CodePipelineConstruct demo_stack demo_svn
     = new_CodePipelineConstruct demo_stack (with_repoType demo_svn (Some "codecommit")).
Proof.
  apply (unrecognised_tag_builds_as_codecommit demo_stack demo_svn); discriminate.
Defined.

(** C7: for every configuration tagged ["git"] whose [git] block leaves the
    branch out, every action named [SourceCode] that is attached to the
    pipeline is a CodeStar connections action on branch ["main"]; and
    whenever the constructor returns, the Source stage has that action. *)
Theorem git_branch_defaults_to_main stack props block :
  repoType props = Some "git" ->
  git props = Some block ->
  githubRepoBranch block = None ->
  (forall a,
     In a (all_actions (graph stack props)) ->
     codepipeline.actionName a = "SourceCode" ->
     codepipeline.kind a
     = codepipeline.CodeStarConnectionsSourceAction
         (githubRepoOwner block) (githubRepoName block) "main"
         (githubConnectionArn block))
  /\ (outcome stack props = Returned tt ->
      exists st a,
        find_stage "Source" (graph stack props) = Some st
        /\ find_action "SourceCode" st = Some a).
Proof.
  intros Htag Hgit Hbranch. destruct block as [conn owner repo branch].
  cbn in Hbranch. subst branch. split.
  - intros a Ha Hname.
    by_cases props; subst; try discriminate; injection Hgit as ->;
      unfold all_actions in Ha; run in Ha; each_member Ha;
      try discriminate Hname; reflexivity.
  - intros H.
    by_cases props; subst; try discriminate; run in H; try discriminate H;
      unfold find_stage; run; do 2 eexists; repeat split.
Qed.

(** Instance: the [demo] configuration, whose [git] block names no branch. *)
Lemma git_branch_defaults_to_main_demo :
  exists st a,
    find_stage "Source" (graph demo_stack demo) = Some st
    /\ find_action "SourceCode" st = Some a
    /\ codepipeline.kind a
       = codepipeline.CodeStarConnectionsSourceAction
           (Some "acme") (Some "ml-repo") "main" (Some "conn1").
Proof.
  destruct (git_branch_defaults_to_main demo_stack demo _ eq_refl eq_refl eq_refl)
    as [onMain present].
  destruct (present eq_refl) as (st & a & Hst & Ha).
  exists st, a. repeat split; try assumption.
  apply onMain.
  - unfold all_actions. apply in_flat_map. exists st. split.
    + apply find_some in Hst. apply Hst.
    + apply find_some in Ha. apply Ha.
  - apply find_some in Ha. destruct Ha as [_ E]. now apply String.eqb_eq in E.
Defined.

(** C8: for every configuration tagged ["codecommit"], the graph declares
    exactly one managed repository, under the fixed id [SourceRepository]
    and the fixed name [MLOpsE2EDemo]; every action named [SourceCode] that
    is attached to the pipeline reads that repository on branch ["main"];
    and whenever the constructor returns, the Source stage has that
    action. *)
Theorem codecommit_declares_one_repository stack props :
  repoType props = Some "codecommit" ->
  repositories (graph stack props) = [("SourceRepository", "MLOpsE2EDemo")]
  /\ (forall a,
        In a (all_actions (graph stack props)) ->
        codepipeline.actionName a = "SourceCode" ->
        codepipeline.kind a
        = codepipeline.CodeCommitSourceAction "SourceRepository" "main")
  /\ (outcome stack props = Returned tt ->
      exists st a,
        find_stage "Source" (graph stack props) = Some st
        /\ find_action "SourceCode" st = Some a).
Proof.
  intros Htag. split; [ | split ].
  - by_cases props; subst; try discriminate; run; reflexivity.
  - intros a Ha Hname.
    by_cases props; subst; try discriminate;
      unfold all_actions in Ha; run in Ha; each_member Ha;
      try discriminate Hname; reflexivity.
  - intros H.
    by_cases props; subst; try discriminate; run in H; try discriminate H;
      unfold find_stage; run; do 2 eexists; repeat split.
Qed.

(** Instance: the [demo] configuration in its CodeCommit variant. *)
Lemma codecommit_declares_one_repository_demo :
  repositories (graph demo_stack demo_codecommit) = [("SourceRepository", "MLOpsE2EDemo")]
  /\ exists st a,
       find_stage "Source" (graph demo_stack demo_codecommit) = Some st
       /\ find_action "SourceCode" st = Some a
       /\ codepipeline.kind a
          = codepipeline.CodeCommitSourceAction "SourceRepository" "main".
Proof.
  destruct (codecommit_declares_one_repository demo_stack demo_codecommit eq_refl)
    as (one & onMain & present).
  split; [exact one|].
  destruct (present eq_refl) as (st & a & Hst & Ha).
  exists st, a. repeat split; try assumption.
  apply onMain.
  - unfold all_actions. apply in_flat_map. exists st. split.
    + apply find_some in Hst. apply Hst.
    + apply find_some in Ha. apply Ha.
  - apply find_some in Ha. destruct Ha as [_ E]. now apply String.eqb_eq in E.
Defined.

(** ** Stages *)

(** C3, at the [demo] configuration: the four stages are named Source, CI,
    MLPipeline, Deploy; the third is not named ModelPipeline. *)
Lemma third_stage_is_named_MLPipeline :
  valid demo = true
  /\ stage_names (graph demo_stack demo) = ["Source"; "CI"; "MLPipeline"; "Deploy"]
  /\ stage_names (graph demo_stack demo) <> ["Source"; "CI"; "ModelPipeline"; "Deploy"].
Proof. repeat split. discriminate. Qed.

(** C3, as the code has it: for every valid configuration, one that has
    the declared type of the props (manifest bucket, artifact bucket,
    execution role and project name present, tag ["git"] with its block or
    tag ["codecommit"]), the constructor returns and the pipeline has
    exactly four stages, in the order Source, CI, MLPipeline, Deploy,
    with those names. *)
Theorem four_stages_in_order stack props :
  valid props = true ->
  outcome stack props = Returned tt
  /\ stage_names (graph stack props) = ["Source"; "CI"; "MLPipeline"; "Deploy"].
Proof.
  intros H. split; [now apply valid_returns|].
  by_cases props; run; try discriminate H; reflexivity.
Qed.

(** Instance: the [demo] configuration. *)
Lemma four_stages_in_order_demo :
  outcome demo_stack demo = Returned tt
  /\ stage_names (graph demo_stack demo) = ["Source"; "CI"; "MLPipeline"; "Deploy"].
Proof. apply (four_stages_in_order demo_stack demo). reflexivity. Defined.

(** C5, at a configuration without artifact bucket: the constructor throws
    the runtime's [TypeError], not [ConfigurationError], and only once the
    Source and CI stages are attached. *)
Lemma missing_bucket_fails_late_with_TypeError :
  sageMakerArtifactBucket demo_without_bucket = None
  /\ outcome demo_stack demo_without_bucket = Thrown (TypeError "bucketArn")
  /\ outcome demo_stack demo_without_bucket <> Thrown ConfigurationError
  /\ stage_names (graph demo_stack demo_without_bucket) = ["Source"; "CI"].
Proof. repeat split. discriminate. Qed.

(** C5, as the code has it: the constructor validates nothing and never
    throws [ConfigurationError].  For every configuration in which the
    artifact bucket or the execution role is missing, the manifest bucket
    being there and, when the tag is ["git"], the [git] block with its
    required properties, it throws the [TypeError] of the first read
    through the missing handle, while the statements of the MLPipeline
    role are built, when the Source and CI stages are already attached. *)
Theorem missing_handle_throws_TypeError_after_CI stack props :
  outcome stack props <> Thrown ConfigurationError
  /\ (source_given props = true ->
      is_some (dataManifestBucket props) = true ->
      sageMakerArtifactBucket props = None \/ sageMakerExecutionRole props = None ->
      outcome stack props
      = Thrown (TypeError (if is_some (sageMakerArtifactBucket props)
                           then "roleArn" else "bucketArn"))
      /\ stage_names (graph stack props) = ["Source"; "CI"]).
Proof.
  split; [apply never_ConfigurationError|].
  intros Hsrc Hmanifest Hmissing.
  by_cases props; run; try discriminate Hsrc; try discriminate Hmanifest;
    try (destruct Hmissing; discriminate); split; reflexivity.
Qed.

(** Instance: the configuration without artifact bucket. *)
Lemma missing_handle_throws_TypeError_after_CI_demo :
  outcome demo_stack demo_without_bucket = Thrown (TypeError "bucketArn")
  /\ stage_names (graph demo_stack demo_without_bucket) = ["Source"; "CI"].
Proof.
  destruct (missing_handle_throws_TypeError_after_CI demo_stack demo_without_bucket)
    as (_ & late).
  apply late; [reflexivity | reflexivity | left; reflexivity].
Defined.

(** C4: for every configuration, in any stage named Deploy of the pipeline,
    a manual-approval action and a build action both carry a run-order and
    the approval's is strictly below the build's; and whenever the
    constructor returns, the Deploy stage is there with its [Approval]
    and its [Deploy] build action. *)
Theorem approval_precedes_deploy stack props :
  (forall st a d,
     In st (stages_of (graph stack props)) ->
     codepipeline.stageName st = "Deploy" ->
     In a (codepipeline.actions st) -> is_approval a = true ->
     In d (codepipeline.actions st) -> is_build d = true ->
     exists ra rd,
       codepipeline.runOrder a = Some ra /\ codepipeline.runOrder d = Some rd /\ ra < rd)
  /\ (outcome stack props = Returned tt ->
      exists st a d,
        find_stage "Deploy" (graph stack props) = Some st
        /\ find_action "Approval" st = Some a /\ is_approval a = true
        /\ find_action "Deploy" st = Some d /\ is_build d = true).
Proof.
  split.
  - intros st a d Hst Hname Ha Happ Hd Hbuild.
    by_cases props; run in Hst; each_member Hst;
      try discriminate Hname;
      cbn [codepipeline.actions] in Ha, Hd;
      destruct Ha as [<- | [<- | []]]; try discriminate Happ;
      destruct Hd as [<- | [<- | []]]; try discriminate Hbuild;
      exists 1, 2; repeat split; lia.
  - intros H. by_cases props; run in H; try discriminate H; unfold find_stage; run;
      do 3 eexists; repeat split.
Qed.

(** Instance: the Deploy stage of the [demo] configuration. *)
Lemma approval_precedes_deploy_demo :
  exists st a d ra rd,
    find_stage "Deploy" (graph demo_stack demo) = Some st
    /\ find_action "Approval" st = Some a
    /\ find_action "Deploy" st = Some d
    /\ codepipeline.runOrder a = Some ra /\ codepipeline.runOrder d = Some rd /\ ra < rd.
Proof.
  destruct (approval_precedes_deploy demo_stack demo) as [ordered present].
  destruct (present eq_refl) as (st & a & d & Hst & Ha & Happ & Hd & Hbuild).
  destruct (ordered st a d) as (ra & rd & Hra & Hrd & Hlt); try assumption.
  - apply find_some in Hst. apply Hst.
  - apply find_some in Hst. destruct Hst as [_ E]. now apply String.eqb_eq in E.
  - apply find_some in Ha. apply Ha.
  - apply find_some in Hd. apply Hd.
  - exists st, a, d, ra, rd. repeat split; assumption.
Defined.

(** C10: for every configuration, a build action in a stage named Deploy
    or CI runs a project whose environment has the privileged flag on; and
    whenever the constructor returns, the Deploy stage has its [Deploy]
    build action and the CI stage its [CIBuild] build action. *)
Theorem deploy_build_runs_privileged stack props :
  (forall st a,
     In st (stages_of (graph stack props)) ->
     codepipeline.stageName st = "Deploy" \/ codepipeline.stageName st = "CI" ->
     In a (codepipeline.actions st) -> is_build a = true ->
     runs_privileged (graph stack props) a = true)
  /\ (outcome stack props = Returned tt ->
      exists deployStage deploy ciStage build,
        find_stage "Deploy" (graph stack props) = Some deployStage
        /\ find_action "Deploy" deployStage = Some deploy /\ is_build deploy = true
        /\ find_stage "CI" (graph stack props) = Some ciStage
        /\ find_action "CIBuild" ciStage = Some build /\ is_build build = true).
Proof.
  split.
  - intros st a Hst Hname Ha Hbuild.
    by_cases props; run in Hst; each_member Hst;
      (destruct Hname as [Hname | Hname]; try discriminate Hname);
      cbn [codepipeline.actions] in Ha; each_member Ha;
      try discriminate Hbuild; reflexivity.
  - intros H. by_cases props; run in H; try discriminate H; unfold find_stage; run;
      do 4 eexists; repeat split.
Qed.

(** Instance: the Deploy and CI build actions of the [demo] configuration. *)
Lemma deploy_build_runs_privileged_demo :
  exists deployStage deploy ciStage build,
    find_stage "Deploy" (graph demo_stack demo) = Some deployStage
    /\ find_action "Deploy" deployStage = Some deploy
    /\ find_stage "CI" (graph demo_stack demo) = Some ciStage
    /\ find_action "CIBuild" ciStage = Some build
    /\ runs_privileged (graph demo_stack demo) deploy = true
    /\ runs_privileged (graph demo_stack demo) build = true.
Proof.
  destruct (deploy_build_runs_privileged demo_stack demo) as [flagged present].
  destruct (present eq_refl) as (ds & d & cs & c & Hds & Hd & Hdb & Hcs & Hc & Hcb).
  exists ds, d, cs, c. repeat split; try assumption.
  - apply find_some in Hds as [Hin E]. apply String.eqb_eq in E.
    apply find_some in Hd as [Hd _]. apply (flagged ds d Hin (or_introl E) Hd Hdb).
  - apply find_some in Hcs as [Hin E]. apply String.eqb_eq in E.
    apply find_some in Hc as [Hc _]. apply (flagged cs c Hin (or_intror E) Hc Hcb).
Defined.

(** ** Artifacts *)

(** C6: for every configuration, an artifact that an action of stage [n]
    reads, as primary or extra input, is an output of an action in a stage
    of index below [n], and of no action in stage [n] or later. *)
Theorem no_forward_references stack props n st a art :
  nth_error (stages_of (graph stack props)) n = Some st ->
  In a (codepipeline.actions st) ->
  In art (consumed a) ->
  produced_before (stages_of (graph stack props)) n art
  /\ ~ produced_from (stages_of (graph stack props)) n art.
Proof.
  intros Hn Ha Hart. destruct (graph_is_wired stack props) as [W L]. split.
  - destruct (wired_sound _ [] n st a art W Hn Ha Hart) as [[] | H]. exact H.
  - exact (no_later_producer_sound _ n st a art L Hn Ha Hart).
Qed.

(** Instance: [PipelineOutput], read by the build action of the Deploy stage
    (index 3) of the [demo] configuration. *)
Lemma no_forward_references_demo :
  produced_before (stages_of (graph demo_stack demo)) 3 pipelineOutput
  /\ ~ produced_from (stages_of (graph demo_stack demo)) 3 pipelineOutput.
Proof.
  eapply (no_forward_references demo_stack demo 3).
  - reflexivity.
  - cbn. right; left; reflexivity.
  - cbn. right; left; reflexivity.
Defined.

(** C9: two constructions from the same configuration, in whatever stack
    each takes place, end the same way and leave graphs of the same
    structure: the same stage names in the same order and, per stage, the
    same actions with the same names, run-orders, input artifacts and
    output artifacts; and the same repositories declared. *)
Theorem structure_is_a_function_of_the_configuration stack1 stack2 props :
  topology (graph stack1 props) = topology (graph stack2 props)
  /\ outcome stack1 props = outcome stack2 props
  /\ repositories (graph stack1 props) = repositories (graph stack2 props).
Proof. by_cases props; unfold topology; run; repeat split. Qed.

(** ** Permissions *)

(** C2: for every configuration, every resource of a statement of the
    MLPipeline role that grants a pipeline-lifecycle action is different
    from the bare wildcard and contains the project name as the template
    renders it, which for a project name [p] is [p] itself. *)
Theorem lifecycle_resources_name_the_project stack props st r :
  In st (policy_of "MLPipelineRole" (graph stack props)) ->
  grants_any pipelineLifecycleActions st = true ->
  In r (iam.resources st) ->
  r <> "*" /\ includes (interpolate (projectName props)) r = true.
Proof.
  intros Hst Hgrants Hr.
  by_cases props; run in Hst; each_member Hst;
    try discriminate Hgrants;
    cbn [iam.resources] in Hr; destruct Hr as [<- | [<- | []]];
    (split; [ discriminate | ]);
    repeat first [ apply includes_refl | apply includes_here | apply includes_skip ].
Qed.

(** Instance: the second resource of the lifecycle statement of the [demo]
    configuration. *)
Lemma lifecycle_resources_name_the_project_demo :
  "arn:aws:sagemaker:eu-west-1:111122223333:pipeline/demo/*" <> "*"
  /\ includes "demo" "arn:aws:sagemaker:eu-west-1:111122223333:pipeline/demo/*" = true.
Proof.
  eapply (lifecycle_resources_name_the_project demo_stack demo).
  - cbn. right; left; reflexivity.
  - reflexivity.
  - cbn. right; left; reflexivity.
Defined.

(** * Further properties of the constructor *)

Lemma includes_within (before needle rest : string) :
  includes needle (before ++ needle ++ rest) = true.
Proof. apply includes_skip, includes_here. Qed.

Lemma includes_cons (needle : string) (c : ascii) (hay : string) :
  includes needle hay = true -> includes needle (String c hay) = true.
Proof. apply (includes_skip needle (String c "") hay). Qed.

(** Split a disjunction of equations, keeping each equation. *)
Ltac alternatives H :=
  cbn [In] in H;
  repeat match type of H with _ \/ _ => destruct H as [H | H] end;
  try contradiction.

(** Find the needle in a text built by concatenation. *)
Ltac found :=
  repeat first [ apply includes_refl | apply includes_here
               | apply includes_cons | apply includes_skip ].

(** Find ["Deployment-<project>"] after one of the three resource kinds. *)
Ltac scoped :=
  match goal with
  | |- includes ?n _ = true =>
      first [ apply (includes_within ":function:" n "*")
            | apply (includes_within ":role/" n "-*")
            | apply (includes_within ":stack/" n "/*")
            | apply includes_skip; scoped ]
  end.

Ltac distinct := repeat constructor; cbn; intuition discriminate.

(** ** How a construction ends *)

(** X1: for every configuration tagged ["git"] whose [git] block is
    missing, the constructor throws the [TypeError] of reading
    [githubRepoOwner], whatever the other fields are; no stage is attached
    and the pipeline is the only construct declared. *)
Theorem missing_git_block_throws_before_any_stage stack props :
  repoType props = Some "git" ->
  git props = None ->
  outcome stack props = Thrown (TypeError "githubRepoOwner")
  /\ stage_names (graph stack props) = []
  /\ map fst (graph stack props) = ["MLOpsPipeline"].
Proof.
  intros Htag Hgit.
  by_cases props; subst; try discriminate; run; repeat split.
Qed.

(** Instance: the [git] configuration without its block. *)
Lemma missing_git_block_throws_before_any_stage_demo :
  outcome demo_stack demo_without_block = Thrown (TypeError "githubRepoOwner")
  /\ stage_names (graph demo_stack demo_without_block) = []
  /\ map fst (graph demo_stack demo_without_block) = ["MLOpsPipeline"].
Proof.
  exact (missing_git_block_throws_before_any_stage
           demo_stack demo_without_block eq_refl eq_refl).
Defined.

(** X2: a construction leaves no stage, the stages Source and CI, or all
    four stages, never one or three; and it returns exactly when it has
    attached four. *)
Theorem stages_attached_none_two_or_four stack props :
  (stage_names (graph stack props) = []
   \/ stage_names (graph stack props) = ["Source"; "CI"]
   \/ stage_names (graph stack props) = ["Source"; "CI"; "MLPipeline"; "Deploy"])
  /\ (outcome stack props = Returned tt
      <-> length (stages_of (graph stack props)) = 4).
Proof.
  by_cases props; run; (split; [tauto | split; (reflexivity || discriminate)]).
Qed.

(** X3: a construction that throws has attached no Deploy stage and has
    declared neither the approval topic, the deploy role nor the deploy
    project: every place where it can stop comes before them. *)
Theorem failed_construction_declares_nothing_downstream stack props e :
  outcome stack props = Thrown e ->
  find_stage "Deploy" (graph stack props) = None
  /\ lookup "ModelDeploymentApprovalTopic" (graph stack props) = None
  /\ lookup "DeployRole" (graph stack props) = None
  /\ lookup "DeployProject" (graph stack props) = None.
Proof.
  intros H.
  by_cases props; run in H; try discriminate H; unfold find_stage; run;
    repeat split.
Qed.

(** Instance: the configuration without artifact bucket. *)
Lemma failed_construction_declares_nothing_downstream_demo :
  find_stage "Deploy" (graph demo_stack demo_without_bucket) = None
  /\ lookup "ModelDeploymentApprovalTopic" (graph demo_stack demo_without_bucket) = None
  /\ lookup "DeployRole" (graph demo_stack demo_without_bucket) = None
  /\ lookup "DeployProject" (graph demo_stack demo_without_bucket) = None.
Proof.
  exact (failed_construction_declares_nothing_downstream
           demo_stack demo_without_bucket (TypeError "bucketArn") eq_refl).
Defined.

(** ** More on the source variant *)

(** X4: for every configuration tagged ["git"] whose block gives a branch,
    every action named [SourceCode] that is attached to the pipeline is on
    that branch, except that the empty string is replaced by ["main"]; and
    whenever the constructor returns, the Source stage has that action. *)
Theorem git_branch_is_kept_unless_empty stack props block b :
  repoType props = Some "git" ->
  git props = Some block ->
  githubRepoBranch block = Some b ->
  (forall a,
     In a (all_actions (graph stack props)) ->
     codepipeline.actionName a = "SourceCode" ->
     codepipeline.kind a
     = codepipeline.CodeStarConnectionsSourceAction
         (githubRepoOwner block) (githubRepoName block)
         (if String.eqb b "" then "main" else b)
         (githubConnectionArn block))
  /\ (outcome stack props = Returned tt ->
      exists st a,
        find_stage "Source" (graph stack props) = Some st
        /\ find_action "SourceCode" st = Some a).
Proof.
  intros Htag Hgit Hbranch. destruct block as [conn owner repo branch].
  cbn in Hbranch. subst branch. split.
  - intros a Ha Hname.
    by_cases props; subst; try discriminate; injection Hgit as ->;
      unfold all_actions in Ha; destruct b; run in Ha; each_member Ha;
      try discriminate Hname; reflexivity.
  - intros H.
    by_cases props; subst; try discriminate; run in H; try discriminate H;
      unfold find_stage; run; do 2 eexists; repeat split.
Qed.

(** Instance: the [git] configuration on branch ["develop"]. *)
Lemma git_branch_is_kept_unless_empty_demo :
  exists st a,
    find_stage "Source" (graph demo_stack demo_on_develop) = Some st
    /\ find_action "SourceCode" st = Some a
    /\ codepipeline.kind a
       = codepipeline.CodeStarConnectionsSourceAction
           (Some "acme") (Some "ml-repo") "develop" (Some "conn1").
Proof.
  destruct (git_branch_is_kept_unless_empty
              demo_stack demo_on_develop _ "develop" eq_refl eq_refl eq_refl)
    as [onBranch present].
  destruct (present eq_refl) as (st & a & Hst & Ha).
  exists st, a. repeat split; try assumption.
  apply onBranch.
  - unfold all_actions. apply in_flat_map. exists st. split.
    + apply find_some in Hst. apply Hst.
    + apply find_some in Ha. apply Ha.
  - apply find_some in Ha. destruct Ha as [_ E]. now apply String.eqb_eq in E.
Defined.

(** X5: for every configuration tagged ["git"], no managed repository is
    declared and no action of the pipeline is a CodeCommit source action. *)
Theorem git_variant_declares_no_repository stack props :
  repoType props = Some "git" ->
  repositories (graph stack props) = []
  /\ forall a branch repository,
       In a (all_actions (graph stack props)) ->
       codepipeline.kind a <> codepipeline.CodeCommitSourceAction repository branch.
Proof.
  intros Htag.
  by_cases props; subst; try discriminate; unfold all_actions; run;
    (split; [reflexivity|]); intros a branch repository Ha;
    each_member Ha; discriminate.
Qed.

(** Instance: the [demo] configuration. *)
Lemma git_variant_declares_no_repository_demo :
  repositories (graph demo_stack demo) = []
  /\ forall a branch repository,
       In a (all_actions (graph demo_stack demo)) ->
       codepipeline.kind a <> codepipeline.CodeCommitSourceAction repository branch.
Proof. exact (git_variant_declares_no_repository demo_stack demo eq_refl). Defined.

(** X18: in every configuration, a stage named Source has exactly two
    actions, neither with an input: [SourceCode], whose output is
    [SourceCodeOutput], and an S3 source action that reads
    [manifest.json.zip] from the manifest bucket of the props into
    [SourceDataOutput].  The stage is there whenever the constructor
    returns.  When the manifest bucket is missing (the [git] block being
    there with its required properties when the tag asks for it), binding
    that action throws the [TypeError] of [grantRead] and no stage is
    attached. *)
Theorem source_stage_pulls_code_and_manifest stack props :
  (forall st,
     In st (stages_of (graph stack props)) ->
     codepipeline.stageName st = "Source" ->
     exists code data,
       codepipeline.actions st = [code; data]
       /\ codepipeline.actionName code = "SourceCode"
       /\ codepipeline.outputs code = [sourceCodeOutput]
       /\ codepipeline.kind data
          = codepipeline.S3SourceAction (dataManifestBucket props) "manifest.json.zip"
       /\ codepipeline.outputs data = [sourceDataOutput]
       /\ consumed code = [] /\ consumed data = [])
  /\ (outcome stack props = Returned tt ->
      exists st, find_stage "Source" (graph stack props) = Some st)
  /\ (source_given props = true ->
      dataManifestBucket props = None ->
      outcome stack props = Thrown (TypeError "grantRead")
      /\ stage_names (graph stack props) = []).
Proof.
  split; [ | split ].
  - intros st Hst Hname.
    by_cases props; run in Hst; each_member Hst; try discriminate Hname;
      do 2 eexists; repeat split.
  - intros H. by_cases props; run in H; try discriminate H; unfold find_stage; run;
      eexists; reflexivity.
  - intros Hsrc Hmanifest.
    by_cases props; try discriminate Hsrc; try discriminate Hmanifest; run;
      split; reflexivity.
Qed.

(** ** The constructs of the scope *)

(** X6: in every configuration, the constructs declared in the scope have
    pairwise distinct ids. *)
Theorem construct_ids_are_distinct stack props :
  NoDup (map fst (graph stack props)).
Proof. by_cases props; run; distinct. Qed.

(** X7: in every configuration, also after a throw, every action of the
    pipeline refers to constructs that are declared in the scope and of
    the class it expects: a repository, a project (whose role, if any, is
    a declared role) or a topic. *)
Theorem actions_refer_to_declared_constructs stack props a :
  In a (all_actions (graph stack props)) ->
  resolves (graph stack props) a.
Proof.
  intros Ha.
  by_cases props; unfold all_actions in Ha; run in Ha; each_member Ha;
    unfold resolves; run;
    repeat first [ reflexivity | exact I | eexists | split ].
Qed.

(** Instance: the [Deploy] build action of the [demo] configuration. *)
Lemma actions_refer_to_declared_constructs_demo :
  resolves (graph demo_stack demo)
    {| codepipeline.actionName := "Deploy";
       codepipeline.runOrder := Some 2;
       codepipeline.input := Some buildOutput;
       codepipeline.extraInputs := [pipelineOutput];
       codepipeline.outputs := [];
       codepipeline.kind := codepipeline.CodeBuildAction "DeployProject" [] |}.
Proof.
  apply (actions_refer_to_declared_constructs demo_stack demo).
  cbn. do 5 right. left. reflexivity.
Defined.

(** X8: in every configuration, stage names are pairwise distinct, action
    names are pairwise distinct across the pipeline, and no artifact name
    is the output of two actions. *)
Theorem names_are_distinct stack props :
  NoDup (stage_names (graph stack props))
  /\ NoDup (map codepipeline.actionName (all_actions (graph stack props)))
  /\ NoDup (map codepipeline.artifactName
              (flat_map produced (stages_of (graph stack props)))).
Proof. by_cases props; unfold all_actions; run; repeat split; distinct. Qed.

(** X19: in every configuration, two projects declared in the scope to
    which the constructor gives the same role are the same project, and
    the constructor gives no role to the CI project. *)
Theorem projects_do_not_share_roles stack props :
  (forall id1 id2 p1 p2 r,
     In (id1, PipelineProject p1) (graph stack props) ->
     In (id2, PipelineProject p2) (graph stack props) ->
     codebuild.role p1 = Some r ->
     codebuild.role p2 = Some r ->
     id1 = id2)
  /\ (forall p,
        In ("CIBuild", PipelineProject p) (graph stack props) ->
        codebuild.role p = None).
Proof.
  split.
  - intros id1 id2 p1 p2 r H1 H2 R1 R2.
    by_cases props; run in H1; run in H2;
      alternatives H1; try discriminate H1; injection H1 as <- <-;
      cbn in R1; try discriminate R1; injection R1 as <-;
      alternatives H2; try discriminate H2; injection H2 as <- <-;
      cbn in R2; congruence.
  - intros p H.
    by_cases props; run in H; alternatives H; try discriminate H;
      injection H as <-; reflexivity.
Qed.

(** Instance: the projects of the [demo] configuration; the MLPipeline and
    the deploy project have roles of their own, the CI project has none. *)
Lemma projects_do_not_share_roles_demo :
  (forall id p,
     In (id, PipelineProject p) (graph demo_stack demo) ->
     codebuild.role p = Some "DeployRole" ->
     id = "DeployProject")
  /\ (forall p,
        In ("CIBuild", PipelineProject p) (graph demo_stack demo) ->
        codebuild.role p = None).
Proof.
  destruct (projects_do_not_share_roles demo_stack demo) as [own none].
  split; [ | exact none ].
  intros id p Hin Hrole.
  eapply (own id "DeployProject" p _ "DeployRole" Hin);
    [ cbn; do 6 right; left; reflexivity | exact Hrole | reflexivity ].
Defined.

(** ** Artifacts and build actions *)

(** X9: whenever the constructor returns, every artifact that an action
    outputs is read, as primary or extra input, by an action of a later
    stage. *)
Theorem every_output_is_read_downstream stack props m st a art :
  outcome stack props = Returned tt ->
  nth_error (stages_of (graph stack props)) m = Some st ->
  In a (codepipeline.actions st) ->
  In art (codepipeline.outputs a) ->
  consumed_after (stages_of (graph stack props)) m art.
Proof.
  intros H Hm Ha Hart.
  by_cases props; run in H; try discriminate H; run in Hm;
    destruct m as [|[|[|[|m]]]]; cbn in Hm; try discriminate Hm;
    try (destruct m; discriminate Hm);
    injection Hm as <-; cbn [codepipeline.actions] in Ha; each_member Ha;
    cbn [codepipeline.outputs] in Hart; each_member Hart;
    unfold consumed_after; run;
    first
      [ solve [ exists 1; do 2 eexists;
                split; [lia | split; [reflexivity | split; [left; reflexivity | cbn; auto]]] ]
      | solve [ exists 2; do 2 eexists;
                split; [lia | split; [reflexivity | split; [left; reflexivity | cbn; auto]]] ]
      | solve [ exists 3; do 2 eexists;
                split; [lia | split; [reflexivity | split; [right; left; reflexivity | cbn; auto]]] ] ].
Qed.

(** Instance: [SourceDataOutput], output in the Source stage (index 0) of
    the [demo] configuration. *)
Lemma every_output_is_read_downstream_demo :
  consumed_after (stages_of (graph demo_stack demo)) 0 sourceDataOutput.
Proof.
  eapply (every_output_is_read_downstream demo_stack demo 0).
  - reflexivity.
  - reflexivity.
  - cbn. right; left; reflexivity.
  - cbn. left; reflexivity.
Defined.

(** X10: in every configuration, an action of a stage named MLPipeline
    does not run in a privileged environment; and whenever the constructor
    returns, that stage has its [MLPipeline] build action. *)
Theorem model_pipeline_build_is_not_privileged stack props :
  (forall st a,
     In st (stages_of (graph stack props)) ->
     codepipeline.stageName st = "MLPipeline" ->
     In a (codepipeline.actions st) ->
     runs_privileged (graph stack props) a = false)
  /\ (outcome stack props = Returned tt ->
      exists st a,
        find_stage "MLPipeline" (graph stack props) = Some st
        /\ find_action "MLPipeline" st = Some a /\ is_build a = true).
Proof.
  split.
  - intros st a Hst Hname Ha.
    by_cases props; run in Hst; each_member Hst; try discriminate Hname;
      cbn [codepipeline.actions] in Ha; each_member Ha; reflexivity.
  - intros H. by_cases props; run in H; try discriminate H; unfold find_stage; run;
      do 2 eexists; repeat split.
Qed.

(** X11: in every configuration, an action named [MLPipeline] that is
    attached to the pipeline carries exactly three plain-text environment
    variables, in this order: the name of the artifact bucket, the ARN of
    the execution role and the project name, all three of which the props
    then have.  Whenever the constructor returns, the MLPipeline stage has
    that action and its project runs [./buildspecs/pipeline.yml] under the
    MLPipeline role. *)
Theorem model_pipeline_build_receives_the_handles stack props :
  (forall a,
     In a (all_actions (graph stack props)) ->
     codepipeline.actionName a = "MLPipeline" ->
     exists b r p,
       sageMakerArtifactBucket props = Some b
       /\ sageMakerExecutionRole props = Some r
       /\ projectName props = Some p
       /\ codepipeline.kind a
          = codepipeline.CodeBuildAction "MLPipeline"
              [("SAGEMAKER_ARTIFACT_BUCKET",
                {| codebuild.type := "PLAINTEXT";
                   codebuild.value := Some (s3.bucketName b) |});
               ("SAGEMAKER_PIPELINE_ROLE_ARN",
                {| codebuild.type := "PLAINTEXT";
                   codebuild.value := Some (iam.roleArn r) |});
               ("SAGEMAKER_PROJECT_NAME",
                {| codebuild.type := "PLAINTEXT"; codebuild.value := Some p |})])
  /\ (outcome stack props = Returned tt ->
      exists st a p,
        find_stage "MLPipeline" (graph stack props) = Some st
        /\ find_action "MLPipeline" st = Some a
        /\ lookup "MLPipeline" (graph stack props) = Some (PipelineProject p)
        /\ codebuild.role p = Some "MLPipelineRole"
        /\ codebuild.buildSpec p = "./buildspecs/pipeline.yml").
Proof.
  split.
  - intros a Ha Hname.
    by_cases props; unfold all_actions in Ha; run in Ha; each_member Ha;
      try discriminate Hname; do 3 eexists; repeat split.
  - intros H.
    by_cases props; run in H; try discriminate H; unfold find_stage; run;
      do 3 eexists; repeat split.
Qed.

(** Instance: the [demo] configuration. *)
Lemma model_pipeline_build_receives_the_handles_demo :
  exists st a,
    find_stage "MLPipeline" (graph demo_stack demo) = Some st
    /\ find_action "MLPipeline" st = Some a
    /\ codepipeline.kind a
       = codepipeline.CodeBuildAction "MLPipeline"
           [("SAGEMAKER_ARTIFACT_BUCKET",
             {| codebuild.type := "PLAINTEXT"; codebuild.value := Some "artifacts" |});
            ("SAGEMAKER_PIPELINE_ROLE_ARN",
             {| codebuild.type := "PLAINTEXT"; codebuild.value := Some "exec-role" |});
            ("SAGEMAKER_PROJECT_NAME",
             {| codebuild.type := "PLAINTEXT"; codebuild.value := Some "demo" |})].
Proof.
  destruct (model_pipeline_build_receives_the_handles demo_stack demo)
    as [handles present].
  destruct (present eq_refl) as (st & a & p & Hst & Ha & _).
  exists st, a. repeat split; try assumption.
  destruct (handles a) as (b & r & n & Hb & Hr & Hn & Hkind).
  - unfold all_actions. apply in_flat_map. exists st. split.
    + apply find_some in Hst. apply Hst.
    + apply find_some in Ha. apply Ha.
  - apply find_some in Ha. destruct Ha as [_ E]. now apply String.eqb_eq in E.
  - injection Hb as <-. injection Hr as <-. injection Hn as <-. exact Hkind.
Defined.

(** X17: in every configuration, a manual-approval action of the pipeline
    notifies the declared topic [ModelDeploymentApprovalTopic], its message
    contains the project name as the template renders it, its link
    contains the region of the stack, and it reads and outputs no
    artifact. *)
Theorem approval_notifies_about_the_project stack props a topic info link :
  In a (all_actions (graph stack props)) ->
  codepipeline.kind a = codepipeline.ManualApprovalAction topic info link ->
  lookup topic (graph stack props) = Some (Topic "ModelDeploymentApprovalTopic")
  /\ includes (interpolate (projectName props)) info = true
  /\ includes (region stack) link = true
  /\ consumed a = [] /\ codepipeline.outputs a = [].
Proof.
  intros Ha Hkind.
  by_cases props; unfold all_actions in Ha; run in Ha; each_member Ha;
    run in Hkind; try discriminate Hkind; injection Hkind as <- <- <-;
    run; repeat split; found.
Qed.

(** Instance: the [Approval] action of the [demo] configuration. *)
Lemma approval_notifies_about_the_project_demo :
  lookup "ModelDeploymentApprovalTopic" (graph demo_stack demo)
  = Some (Topic "ModelDeploymentApprovalTopic")
  /\ includes "demo"
       "A new version of the model for project demo is waiting for approval" = true
  /\ includes "eu-west-1"
       "https://eu-west-1.console.aws.amazon.com/sagemaker/home?region=eu-west-1#/studio/"
     = true
  /\ @nil codepipeline.Artifact = [] /\ @nil codepipeline.Artifact = [].
Proof.
  eapply (approval_notifies_about_the_project demo_stack demo
            {| codepipeline.actionName := "Approval";
               codepipeline.runOrder := Some 1;
               codepipeline.input := None;
               codepipeline.extraInputs := [];
               codepipeline.outputs := [];
               codepipeline.kind :=
                 codepipeline.ManualApprovalAction "ModelDeploymentApprovalTopic"
                   "A new version of the model for project demo is waiting for approval"
                   "https://eu-west-1.console.aws.amazon.com/sagemaker/home?region=eu-west-1#/studio/" |}).
  - cbn. do 4 right. left. reflexivity.
  - reflexivity.
Defined.

(** ** More on permissions *)

(** X12: in every configuration, every role declared in the scope is
    assumed by [codebuild.amazonaws.com], and every statement the
    constructor attaches to it allows; none denies. *)
Theorem roles_are_assumed_by_codebuild_and_only_allow stack props id principal policy :
  In (id, principal, policy) (roles (graph stack props)) ->
  principal = "codebuild.amazonaws.com"
  /\ forall st, In st policy -> iam.effect st = iam.Allow.
Proof.
  intros Hrole.
  by_cases props; run in Hrole;
    repeat (destruct Hrole as [E | Hrole]; [injection E as <- <- <- | ]);
    try contradiction; (split; [reflexivity|]);
    intros st Hst; each_member Hst; reflexivity.
Qed.

(** Instance: the deploy role of the [demo] configuration, with its five
    statements. *)
Lemma roles_are_assumed_by_codebuild_and_only_allow_demo :
  length (policy_of "DeployRole" (graph demo_stack demo)) = 5
  /\ "codebuild.amazonaws.com" = "codebuild.amazonaws.com"
  /\ forall st,
       In st (policy_of "DeployRole" (graph demo_stack demo)) ->
       iam.effect st = iam.Allow.
Proof.
  split; [reflexivity|].
  apply (roles_are_assumed_by_codebuild_and_only_allow
           demo_stack demo "DeployRole").
  cbn. right. left. reflexivity.
Defined.

(** X16: in every configuration, a statement that the constructor attaches
    to the MLPipeline role carries no condition; if it grants an [s3:]
    action its resources are exactly the ARN of the artifact bucket of the
    props and that ARN followed by ["/*"]; if it grants an [iam:] action,
    that action is [iam:PassRole] alone and its only resource is the ARN
    of the execution role of the props. *)
Theorem model_pipeline_grants_are_scoped_to_the_handles stack props st :
  In st (policy_of "MLPipelineRole" (graph stack props)) ->
  (grants_service "s3:" st = true ->
   exists b,
     sageMakerArtifactBucket props = Some b
     /\ iam.resources st = [s3.bucketArn b; s3.bucketArn b ++ "/*"])
  /\ (grants_service "iam:" st = true ->
      exists r,
        sageMakerExecutionRole props = Some r
        /\ iam.actions st = ["iam:PassRole"]
        /\ iam.resources st = [iam.roleArn r])
  /\ iam.conditions st = [].
Proof.
  intros Hst.
  by_cases props; run in Hst; each_member Hst;
    (split; [ intros G; try discriminate G; eexists; split; reflexivity | ]);
    (split; [ intros G; try discriminate G; eexists; repeat split | reflexivity ]).
Qed.

(** Instance: the [iam:PassRole] statement of the [demo] configuration. *)
Lemma model_pipeline_grants_are_scoped_to_the_handles_demo :
  exists r,
    sageMakerExecutionRole demo = Some r
    /\ ["iam:PassRole"] = ["iam:PassRole"]
    /\ ["exec-role"] = [iam.roleArn r].
Proof.
  refine (proj1 (proj2 (model_pipeline_grants_are_scoped_to_the_handles demo_stack demo
            {| iam.effect := iam.Allow;
               iam.actions := ["iam:PassRole"];
               iam.resources := ["exec-role"];
               iam.conditions := [] |} _)) eq_refl).
  cbn. do 2 right. left. reflexivity.
Defined.

(** X13: in every configuration, a statement attached to the deploy role
    that has the bare wildcard among its resources grants [sagemaker:*Endpoint*]
    and nothing else, on the wildcard alone, under the condition that the
    call comes through CloudFormation. *)
Theorem deploy_wildcard_is_the_endpoint_statement stack props st :
  In st (policy_of "DeployRole" (graph stack props)) ->
  In "*" (iam.resources st) ->
  iam.actions st = ["sagemaker:*Endpoint*"]
  /\ iam.resources st = ["*"]
  /\ iam.conditions st = calledViaCloudFormation.
Proof.
  intros Hst Hwild.
  by_cases props; run in Hst; each_member Hst;
    cbn [iam.resources] in Hwild; alternatives Hwild;
    try discriminate Hwild; repeat split.
Qed.

(** Instance: the endpoint statement of the [demo] configuration. *)
Lemma deploy_wildcard_is_the_endpoint_statement_demo :
  ["sagemaker:*Endpoint*"] = ["sagemaker:*Endpoint*"]
  /\ ["*"] = ["*"]
  /\ calledViaCloudFormation = calledViaCloudFormation.
Proof.
  apply (deploy_wildcard_is_the_endpoint_statement demo_stack demo
           {| iam.effect := iam.Allow;
              iam.actions := ["sagemaker:*Endpoint*"];
              iam.resources := ["*"];
              iam.conditions := calledViaCloudFormation |}).
  - cbn. right; left; reflexivity.
  - cbn. left; reflexivity.
Defined.

(** X14: in every configuration, of the statements the constructor
    attaches to the deploy role, each one that grants an action of Lambda,
    SageMaker or IAM carries the condition [ForAnyValue:StringEquals] on
    [aws:CalledVia] with the single value [cloudformation.amazonaws.com];
    each one carries that condition or none; and each one without
    condition grants actions of CloudFormation and S3 only. *)
Theorem deploy_grants_act_only_through_cloudformation stack props st :
  In st (policy_of "DeployRole" (graph stack props)) ->
  (grants_service "lambda:" st || grants_service "sagemaker:" st
     || grants_service "iam:" st = true ->
   iam.conditions st
   = [("ForAnyValue:StringEquals",
       [("aws:CalledVia", ["cloudformation.amazonaws.com"])])])
  /\ (iam.conditions st = calledViaCloudFormation \/ iam.conditions st = [])
  /\ (iam.conditions st = [] ->
      forallb (fun a => prefix "cloudformation:" a || prefix "s3:" a) (iam.actions st)
      = true).
Proof.
  intros Hst.
  by_cases props; run in Hst; each_member Hst;
    (split; [ intros G; try discriminate G; reflexivity | ]);
    (split; [ (left; reflexivity) || (right; reflexivity) | ]);
    intros G; try discriminate G; reflexivity.
Qed.

(** Instance: the endpoint statement of the [demo] configuration. *)
Lemma deploy_grants_act_only_through_cloudformation_demo :
  calledViaCloudFormation
  = [("ForAnyValue:StringEquals", [("aws:CalledVia", ["cloudformation.amazonaws.com"])])].
Proof.
  refine (proj1 (deploy_grants_act_only_through_cloudformation demo_stack demo
           {| iam.effect := iam.Allow;
              iam.actions := ["sagemaker:*Endpoint*"];
              iam.resources := ["*"];
              iam.conditions := calledViaCloudFormation |} _) eq_refl).
  cbn. right; left; reflexivity.
Defined.

(** X15: in every configuration, a resource of a statement that the
    constructor attaches to the deploy role is the bare wildcard, the CDK
    toolkit stack of the region and account, the CDK toolkit staging
    buckets, or a pattern that contains ["Deployment-"] followed by the
    project name as the template renders it. *)
Theorem deploy_resources_are_scoped_to_the_project stack props st r :
  In st (policy_of "DeployRole" (graph stack props)) ->
  In r (iam.resources st) ->
  r = "*"
  \/ r = "arn:aws:cloudformation:" ++ region stack ++ ":" ++ account stack
         ++ ":stack/CDKToolkit/*"
  \/ r = "arn:aws:s3:::cdktoolkit-stagingbucket-*"
  \/ includes ("Deployment-" ++ interpolate (projectName props)) r = true.
Proof.
  intros Hst Hr.
  by_cases props; run in Hst; each_member Hst;
    cbn [iam.resources] in Hr; each_member Hr;
    first [ left; reflexivity
          | right; left; reflexivity
          | right; right; left; reflexivity
          | right; right; right; scoped ].
Qed.

(** Instance: the role pattern of the [demo] configuration. *)
Lemma deploy_resources_are_scoped_to_the_project_demo :
  "arn:aws:iam::111122223333:role/Deployment-demo-*" = "*"
  \/ "arn:aws:iam::111122223333:role/Deployment-demo-*"
     = "arn:aws:cloudformation:eu-west-1:111122223333:stack/CDKToolkit/*"
  \/ "arn:aws:iam::111122223333:role/Deployment-demo-*"
     = "arn:aws:s3:::cdktoolkit-stagingbucket-*"
  \/ includes "Deployment-demo" "arn:aws:iam::111122223333:role/Deployment-demo-*" = true.
Proof.
  eapply (deploy_resources_are_scoped_to_the_project demo_stack demo).
  - cbn. do 2 right. left. reflexivity.
  - cbn. left. reflexivity.
Defined.
